(** * QuiverWallStreetBetsUniverseAlgorithm: universe selection and start-up check

    A shallow embedding of [QuiverWallStreetBetsUniverseSelectionAlgorithm.py].

    The algorithm object ([self]) and the data objects handed over by the
    host are Python objects, so the embedding threads one explicit state
    through every method: the fields of [self] that the methods assign, the
    log sink written by [self.Log], and an object store that maps a
    reference to the record it points to.  A batch ([data]) is a Python
    list of references into that store; the same object may occur in it
    more than once.

    The host framework itself is not part of the file: a call into it
    is recorded by its visible effect on the state.  In particular [log]
    is the sequence of the messages passed to [self.Log], oldest first, and
    reading an attribute of a data object is a read of the store.  A batch
    is a sequence that can be traversed more than once, as the two
    traversals of [UniverseSelection] need.

    A method is a computation in a state-and-exception monad: it returns
    either a value or the exception it raised, together with the state it
    left behind ([raise] keeps every effect that happened before it). *)

From Stdlib Require Import List ZArith String Bool Lia.
From Stdlib Require Import Decimal DecimalString.
From Stdlib Require Import Permutation.
Import ListNotations.

Local Open Scope Z_scope.
Local Open Scope string_scope.

(** ** Host framework values *)

(** [Resolution.Daily] and its siblings. *)
Inductive Resolution : Type :=
| Tick | Second | Minute | Hour | Daily.

(** The three arguments of [SetStartDate] / [SetEndDate]. *)
Record Date : Type := mkDate { year : Z; month : Z; day : Z }.

(** [TimeSpan(days, hours, minutes, seconds)]. *)
Record TimeSpan : Type :=
  mkTimeSpan { ts_days : Z; ts_hours : Z; ts_minutes : Z; ts_seconds : Z }.

(** The data types a universe can be built on; the algorithm uses one. *)
Inductive UniverseType : Type :=
| QuiverWallStreetBetsUniverse.

(** The bound methods that can be registered as a selector. *)
Inductive Selector : Type :=
| self_UniverseSelection.

(** What [AddUniverse] hands back: the universe it registered. *)
Record Universe : Type :=
  mkUniverse { universe_type : UniverseType; universe_selector : Selector }.

(** Exceptions raised by the algorithm. *)
Inductive Exn : Type :=
| ValueError (msg : string).

(** A reference to a data object in the store. *)
Definition ref : Type := nat.

(** [str(n)] for a Python [int]: decimal digits, a leading [-] when
    negative. *)
Definition str_int (z : Z) : string := NilZero.string_of_int (Z.to_int z).

(** [str(len(xs))]. *)
Definition str_len (n : nat) : string := NilZero.string_of_uint (Nat.to_uint n).

Section Model.

(** The host's [Symbol] and the type of the [Sentiment] score are opaque
    to the algorithm; it only formats them.  Their [str] is the host's. *)
Variables SymbolT SentimentT : Type.
Variable str_Symbol : SymbolT -> string.
Variable str_Sentiment : SentimentT -> string.

(** One record of the feed: the four attributes the algorithm reads. *)
Record Datum : Type := mkDatum {
  Symbol : SymbolT;
  Mentions : Z;
  Rank : Z;
  Sentiment : SentimentT
}.

(** The state threaded through the methods. *)
Record QCAlgorithm : Type := mkQCAlgorithm {
  UniverseSettings_Resolution : Resolution;
  StartDate : option Date;
  EndDate : option Date;
  Cash : Z;
  Universes : list Universe;
  heap : ref -> Datum;
  log : list string
}.

Definition set_Resolution (r : Resolution) (st : QCAlgorithm) : QCAlgorithm :=
  mkQCAlgorithm r (StartDate st) (EndDate st) (Cash st) (Universes st)
                (heap st) (log st).

Definition set_StartDate (d : Date) (st : QCAlgorithm) : QCAlgorithm :=
  mkQCAlgorithm (UniverseSettings_Resolution st) (Some d) (EndDate st)
                (Cash st) (Universes st) (heap st) (log st).

Definition set_EndDate (d : Date) (st : QCAlgorithm) : QCAlgorithm :=
  mkQCAlgorithm (UniverseSettings_Resolution st) (StartDate st) (Some d)
                (Cash st) (Universes st) (heap st) (log st).

Definition set_Cash (c : Z) (st : QCAlgorithm) : QCAlgorithm :=
  mkQCAlgorithm (UniverseSettings_Resolution st) (StartDate st) (EndDate st)
                c (Universes st) (heap st) (log st).

Definition set_Universes (us : list Universe) (st : QCAlgorithm) : QCAlgorithm :=
  mkQCAlgorithm (UniverseSettings_Resolution st) (StartDate st) (EndDate st)
                (Cash st) us (heap st) (log st).

Definition set_log (l : list string) (st : QCAlgorithm) : QCAlgorithm :=
  mkQCAlgorithm (UniverseSettings_Resolution st) (StartDate st) (EndDate st)
                (Cash st) (Universes st) (heap st) l.

(** ** The monad of methods *)

Definition M (A : Type) : Type := QCAlgorithm -> (Exn + A) * QCAlgorithm.

Definition ret {A : Type} (a : A) : M A := fun st => (inr a, st).

Definition bind {A B : Type} (m : M A) (k : A -> M B) : M B :=
  fun st =>
    match m st with
    | (inr a, st') => k a st'
    | (inl e, st') => (inl e, st')
    end.

Definition raise {A : Type} (e : Exn) : M A := fun st => (inl e, st).

Definition modify (f : QCAlgorithm -> QCAlgorithm) : M unit :=
  fun st => (inr tt, f st).

(** [obj.attr], read through the store. *)
Definition getattr {A : Type} (attr : Datum -> A) (obj : ref) : M A :=
  fun st => (inr (attr (heap st obj)), st).

(** [for x in xs: body(x)]. *)
Fixpoint for_each {A : Type} (xs : list A) (body : A -> M unit) : M unit :=
  match xs with
  | [] => ret tt
  | x :: rest => bind (body x) (fun _ => for_each rest body)
  end.

(** [a and b] on conditions: [b] is evaluated only when [a] holds. *)
Definition and_then (a b : M bool) : M bool :=
  bind a (fun x => if x then b else ret false).

(** [[elt(x) for x in xs if cond(x)]]: for each element the condition
    is evaluated first and the element expression only when it holds. *)
Fixpoint comprehension {A B : Type} (xs : list A)
         (cond : A -> M bool) (elt : A -> M B) : M (list B) :=
  match xs with
  | [] => ret []
  | x :: rest =>
      bind (cond x) (fun c =>
      if c
      then bind (elt x) (fun v =>
           bind (comprehension rest cond elt) (fun vs => ret (v :: vs)))
      else comprehension rest cond elt)
  end.

(** ** Host calls *)

(** [self.Log(message)]: the call is recorded at the end of the log. *)
Definition Log (message : string) : M unit :=
  modify (fun st => set_log (log st ++ [message]) st).

Definition SetStartDate (y m d : Z) : M unit :=
  modify (set_StartDate (mkDate y m d)).

Definition SetEndDate (y m d : Z) : M unit :=
  modify (set_EndDate (mkDate y m d)).

Definition SetCash (c : Z) : M unit := modify (set_Cash c).

(** [self.AddUniverse(type, selector)] registers the universe and
    returns it. *)
Definition AddUniverse (t : UniverseType) (sel : Selector) : M Universe :=
  fun st =>
    let u := mkUniverse t sel in
    (inr u, set_Universes (Universes st ++ [u]) st).

(** The historical data the host answers a request with: one batch per
    date of the requested span.  It is the host's, so it is a parameter
    of the model. *)
Variable host_history : Universe -> TimeSpan -> list (list ref).

Definition History (u : Universe) (span : TimeSpan) : M (list (list ref)) :=
  ret (host_history u span).

(** ** The algorithm *)

(** The f-string of the log call:
    [f"{datum.Symbol},{datum.Mentions},{datum.Rank},{datum.Sentiment}"]. *)
Definition log_message (s : SymbolT) (m r : Z) (se : SentimentT) : string :=
  str_Symbol s ++ "," ++ str_int m ++ "," ++ str_int r ++ ","
             ++ str_Sentiment se.

Definition UniverseSelection (data : list ref) : M (list SymbolT) :=
  bind (for_each data (fun datum =>
          bind (getattr Symbol datum) (fun s =>
          bind (getattr Mentions datum) (fun m =>
          bind (getattr Rank datum) (fun r =>
          bind (getattr Sentiment datum) (fun se =>
          Log (log_message s m r se)))))))
       (fun _ =>
  (* define our selection criteria *)
  comprehension data
    (fun d => and_then
                (bind (getattr Mentions d) (fun m => ret (m >? 100)%Z))
                (bind (getattr Rank d) (fun r => ret (r <? 100)%Z)))
    (fun d => getattr Symbol d)).

Definition Initialize : M unit :=
  (* Data ADDED via universe selection is added with Daily resolution. *)
  bind (modify (set_Resolution Daily)) (fun _ =>
  bind (SetStartDate 2022 2 14) (fun _ =>
  bind (SetEndDate 2022 2 18) (fun _ =>
  bind (SetCash 100000) (fun _ =>
  (* add a custom universe data source *)
  bind (AddUniverse QuiverWallStreetBetsUniverse self_UniverseSelection)
       (fun universe =>
  bind (History universe (mkTimeSpan 1 0 0 0)) (fun history =>
  bind (if negb (Nat.eqb (List.length history) 1)
        then raise (ValueError ("Unexpected history count "
                                  ++ str_len (List.length history)
                                  ++ "! Expected 1"))
        else ret tt) (fun _ =>
  for_each history (fun dataForDate =>
    if Nat.ltb (List.length dataForDate) 100
    then raise (ValueError "Unexpected historical universe data!")
    else ret tt)))))))).

(** ** Vocabulary of the statements *)

(** The records a batch points to, in batch order. *)
Definition records (st : QCAlgorithm) (data : list ref) : list Datum :=
  map (heap st) data.

(** The selection criteria, on the values of one record:
    [d.Mentions > 100 and d.Rank < 100]. *)
Definition selected (d : Datum) : bool :=
  ((Mentions d >? 100)%Z && (Rank d <? 100)%Z)%bool.

(** The log message of one record. *)
Definition log_line (d : Datum) : string :=
  log_message (Symbol d) (Mentions d) (Rank d) (Sentiment d).

End Model.

Arguments mkDatum {SymbolT SentimentT}.
Arguments Symbol {SymbolT SentimentT}.
Arguments Mentions {SymbolT SentimentT}.
Arguments Rank {SymbolT SentimentT}.
Arguments Sentiment {SymbolT SentimentT}.
Arguments mkQCAlgorithm {SymbolT SentimentT}.
Arguments UniverseSettings_Resolution {SymbolT SentimentT}.
Arguments StartDate {SymbolT SentimentT}.
Arguments EndDate {SymbolT SentimentT}.
Arguments Cash {SymbolT SentimentT}.
Arguments Universes {SymbolT SentimentT}.
Arguments heap {SymbolT SentimentT}.
Arguments log {SymbolT SentimentT}.
Arguments set_log {SymbolT SentimentT}.
Arguments UniverseSelection {SymbolT SentimentT}.
Arguments Initialize {SymbolT SentimentT}.
Arguments ret {SymbolT SentimentT A}.
Arguments bind {SymbolT SentimentT A B}.
Arguments raise {SymbolT SentimentT A}.
Arguments getattr {SymbolT SentimentT A}.
Arguments for_each {SymbolT SentimentT A}.
Arguments and_then {SymbolT SentimentT}.
Arguments comprehension {SymbolT SentimentT A B}.
Arguments Log {SymbolT SentimentT}.
Arguments log_message {SymbolT SentimentT}.
Arguments records {SymbolT SentimentT}.
Arguments selected {SymbolT SentimentT}.
Arguments log_line {SymbolT SentimentT}.

(** ** Concrete feeds *)

(** In the examples a symbol is its ticker and a sentiment score is an
    integer number of basis points. *)
Definition ticker_state (objects : ref -> Datum string Z) : QCAlgorithm string Z :=
  mkQCAlgorithm Minute None None 0 [] objects [].

Definition run_selection (objects : ref -> Datum string Z) (data : list ref)
  : (Exn + list string) * QCAlgorithm string Z :=
  UniverseSelection (fun s => s) str_int data (ticker_state objects).

(** Three records with distinct symbols: one passes both thresholds, one
    fails on mentions, one fails on rank. *)
Definition scenario_objects (r : ref) : Datum string Z :=
  match r with
  | 0%nat => mkDatum "AAA" 150 50 (-12)
  | 1%nat => mkDatum "BBB" 80 10 7
  | _ => mkDatum "CCC" 200 150 0
  end.

Definition scenario_batch : list ref := [0%nat; 1%nat; 2%nat].

(** Two records of one symbol: the first passes, the second does not. *)
Definition mixed_objects (r : ref) : Datum string Z :=
  match r with
  | 0%nat => mkDatum "AAA" 150 50 3
  | _ => mkDatum "AAA" 80 10 3
  end.

Definition mixed_batch : list ref := [0%nat; 1%nat].

(** Two records of one symbol that both pass. *)
Definition twice_objects (r : ref) : Datum string Z :=
  match r with
  | 0%nat => mkDatum "AAA" 150 50 3
  | _ => mkDatum "AAA" 200 10 5
  end.

Definition twice_batch : list ref := [0%nat; 1%nat].

(** Records at the thresholds. *)
Definition boundary_objects (r : ref) : Datum string Z :=
  match r with
  | 0%nat => mkDatum "M100" 100 1 0
  | 1%nat => mkDatum "OK" 101 99 0
  | 2%nat => mkDatum "R100" 500 100 0
  | _ => mkDatum "TOP" 1000 1 0
  end.

(** Host answers to the history request. *)
Definition history_none (_ : Universe) (_ : TimeSpan) : list (list ref) := [].

Definition history_two (_ : Universe) (_ : TimeSpan) : list (list ref) :=
  [repeat 0%nat 100; repeat 0%nat 100].

Definition history_short (_ : Universe) (_ : TimeSpan) : list (list ref) :=
  [repeat 0%nat 99].

Definition history_full (_ : Universe) (_ : TimeSpan) : list (list ref) :=
  [seq 0 100].

(** ** The change notification *)

Section Notifications.

Variables SymbolT SentimentT : Type.

(** The host's description of the securities added and removed, and its
    [ToString()]; both are the host's. *)
Variable SecurityChanges : Type.
Variable ToString : SecurityChanges -> string.

Definition OnSecuritiesChanged (changes : SecurityChanges)
  : M SymbolT SentimentT unit :=
  Log (ToString changes).

End Notifications.

Arguments OnSecuritiesChanged {SymbolT SentimentT SecurityChanges}.

(** ** More concrete feeds *)

(** The scenario's records in another order. *)
Definition scenario_batch_shuffled : list ref := [2%nat; 0%nat; 1%nat].

(** The scenario's symbols, mentions and ranks with a textual sentiment. *)
Definition scenario_objects_text (r : ref) : Datum string string :=
  match r with
  | 0%nat => mkDatum "AAA" 150 50 "bullish"
  | 1%nat => mkDatum "BBB" 80 10 "bearish"
  | _ => mkDatum "CCC" 200 150 "neutral"
  end.

Definition text_state : QCAlgorithm string string :=
  mkQCAlgorithm Daily None None 5 [] scenario_objects_text ["earlier line"].

(** One batch of a hundred references to one object. *)
Definition history_full_aliased (_ : Universe) (_ : TimeSpan) : list (list ref) :=
  [repeat 7%nat 100].

(** * Properties *)

Section Runs.

Context {SymbolT SentimentT : Type}.
Context (str_Symbol : SymbolT -> string) (str_Sentiment : SentimentT -> string).

Implicit Types (st : QCAlgorithm SymbolT SentimentT) (data : list ref).

Local Open Scope list_scope.

Lemma set_log_same st : set_log (log st) st = st.
Proof. destruct st; reflexivity. Qed.

(** The logging loop appends one message per element and changes nothing
    else. *)
Lemma for_each_Log_run data : forall st,
  for_each data (fun datum =>
    bind (getattr Symbol datum) (fun s =>
    bind (getattr Mentions datum) (fun m =>
    bind (getattr Rank datum) (fun r =>
    bind (getattr Sentiment datum) (fun se =>
    Log (log_message str_Symbol str_Sentiment s m r se)))))) st
  = (inr tt,
     set_log (log st ++ map (log_line str_Symbol str_Sentiment) (records st data)) st).
Proof.
  induction data as [|datum rest IH]; intros st.
  - cbn. rewrite app_nil_r, set_log_same. reflexivity.
  - cbn [for_each]. unfold bind at 1. cbn -[for_each log_message].
    rewrite IH. cbn -[log_message]. unfold log_line.
    rewrite <- app_assoc. reflexivity.
Qed.

(** The comprehension reads the store and leaves the state alone. *)
Lemma comprehension_run data : forall st,
  comprehension data
    (fun d => and_then
                (bind (getattr Mentions d) (fun m => ret (m >? 100)%Z))
                (bind (getattr Rank d) (fun r => ret (r <? 100)%Z)))
    (fun d => getattr Symbol d) st
  = (inr (map Symbol (filter selected (records st data))), st).
Proof.
  induction data as [|d rest IH]; intros st; [reflexivity|].
  cbn [comprehension records map filter]. unfold selected at 1.
  unfold bind at 1, and_then, bind, getattr, ret.
  destruct (Mentions (heap st d) >? 100)%Z; cbn [andb].
  - destruct (Rank (heap st d) <? 100)%Z.
    + fold (@bind SymbolT SentimentT). rewrite IH. reflexivity.
    + apply IH.
  - apply IH.
Qed.

(** What a call of [UniverseSelection] returns and the state it leaves. *)
Lemma UniverseSelection_run data st :
  UniverseSelection str_Symbol str_Sentiment data st
  = (inr (map Symbol (filter selected (records st data))),
     set_log (log st ++ map (log_line str_Symbol str_Sentiment) (records st data)) st).
Proof.
  unfold UniverseSelection. unfold bind at 1.
  rewrite for_each_Log_run, comprehension_run. reflexivity.
Qed.

(** *** Facts about the selected list *)

Lemma selected_true_iff (r : Datum SymbolT SentimentT) :
  selected r = true <-> (Mentions r > 100 /\ Rank r < 100)%Z.
Proof.
  unfold selected. rewrite andb_true_iff, Z.gtb_ltb, !Z.ltb_lt. lia.
Qed.

Lemma In_selection (s : SymbolT) (rs : list (Datum SymbolT SentimentT)) :
  In s (map Symbol (filter selected rs)) <->
  exists r, In r rs /\ Symbol r = s /\ (Mentions r > 100 /\ Rank r < 100)%Z.
Proof.
  rewrite in_map_iff. split.
  - intros (r & Hs & Hr). apply filter_In in Hr as [Hin Hsel].
    exists r. rewrite <- selected_true_iff. auto.
  - intros (r & Hin & Hs & Hq). exists r. split; [assumption|].
    apply filter_In. rewrite selected_true_iff. auto.
Qed.

Lemma selection_app (rs1 rs2 : list (Datum SymbolT SentimentT)) :
  map Symbol (filter selected (rs1 ++ rs2)) =
  map Symbol (filter selected rs1) ++ map Symbol (filter selected rs2).
Proof. rewrite filter_app, map_app. reflexivity. Qed.

Lemma NoDup_map_eq {A B : Type} (f : A -> B) (l : list A) :
  NoDup (map f l) -> forall x y, In x l -> In y l -> f x = f y -> x = y.
Proof.
  induction l as [|a l IH]; cbn; intros Hnd x y Hx Hy Hxy; [contradiction|].
  inversion Hnd as [|? ? Hnotin Hnd']; subst.
  destruct Hx as [->|Hx], Hy as [->|Hy].
  - reflexivity.
  - exfalso. apply Hnotin. rewrite Hxy. now apply in_map.
  - exfalso. apply Hnotin. rewrite <- Hxy. now apply in_map.
  - now apply IH.
Qed.

(** *** The claims about [UniverseSelection] *)

(** C1.  In a batch in which no two records carry the same symbol (the
    invariant of the data model), the symbol of a record of the batch is in
    the returned selection if and only if that very record has more than 100
    mentions and a rank below 100.  In any batch, a symbol is in the
    selection if and only if some record of the batch carries it and has
    more than 100 mentions and a rank below 100.  The call returns
    normally. *)
Theorem UniverseSelection_exact data st :
  exists sel st',
    UniverseSelection str_Symbol str_Sentiment data st = (inr sel, st') /\
    (forall s,
       In s sel <->
       exists d, In d data /\ Symbol (heap st d) = s /\
                 (Mentions (heap st d) > 100 /\ Rank (heap st d) < 100)%Z) /\
    (NoDup (map Symbol (records st data)) ->
     forall d, In d data ->
       (In (Symbol (heap st d)) sel <->
        (Mentions (heap st d) > 100 /\ Rank (heap st d) < 100)%Z)).
Proof.
  rewrite UniverseSelection_run.
  eexists _, _. split; [reflexivity|]. split.
  - intros s. rewrite In_selection. split.
    + intros (r & Hr & Hs & Hq).
      apply in_map_iff in Hr as (d & <- & Hd). eauto.
    + intros (d & Hd & Hs & Hq). exists (heap st d).
      split; [now apply in_map|auto].
  - intros Hnd d Hd. rewrite In_selection. split.
    + intros (r & Hr & Hs & Hq).
      assert (Hin : In (heap st d) (records st data)) by now apply in_map.
      rewrite <- (NoDup_map_eq Symbol _ Hnd r (heap st d) Hr Hin Hs). exact Hq.
    + intros Hq. exists (heap st d). split; [now apply in_map|auto].
Qed.

(** C3.  A record at a threshold, anywhere in a batch: with exactly 100
    mentions it contributes nothing to the selection, with 101 mentions and
    rank 99 it contributes its symbol at its place, with rank exactly 100 it
    contributes nothing. *)
Theorem UniverseSelection_boundaries data1 d data2 st :
  exists sel1 sel2 out st1 st2 st',
    UniverseSelection str_Symbol str_Sentiment data1 st = (inr sel1, st1) /\
    UniverseSelection str_Symbol str_Sentiment data2 st = (inr sel2, st2) /\
    UniverseSelection str_Symbol str_Sentiment (data1 ++ d :: data2) st
      = (inr out, st') /\
    (Mentions (heap st d) = 100%Z -> out = sel1 ++ sel2) /\
    (Mentions (heap st d) = 101%Z -> Rank (heap st d) = 99%Z ->
       out = sel1 ++ Symbol (heap st d) :: sel2) /\
    (Rank (heap st d) = 100%Z -> out = sel1 ++ sel2).
Proof.
  rewrite !UniverseSelection_run. eexists _, _, _, _, _, _.
  split; [reflexivity|]. split; [reflexivity|]. split; [reflexivity|].
  unfold records. rewrite map_app, selection_app. cbn [map filter].
  repeat split.
  - intros Hm. unfold selected at 2. rewrite Hm. reflexivity.
  - intros Hm Hr. unfold selected at 2. rewrite Hm, Hr. reflexivity.
  - intros Hr. unfold selected at 2.
    rewrite Hr, Z.ltb_irrefl, andb_false_r. reflexivity.
Qed.

(** C4.  Every element of the returned selection is the symbol of some
    record of the batch. *)
Theorem UniverseSelection_subset data st :
  exists sel st',
    UniverseSelection str_Symbol str_Sentiment data st = (inr sel, st') /\
    forall s, In s sel -> exists d, In d data /\ Symbol (heap st d) = s.
Proof.
  rewrite UniverseSelection_run. eexists _, _. split; [reflexivity|].
  intros s Hs. apply In_selection in Hs as (r & Hr & Hsym & _).
  apply in_map_iff in Hr as (d & Hd & Hin). exists d. subst r. auto.
Qed.

(** C5.  On the empty batch the call returns the empty selection, raises
    nothing and leaves the state, the log included, as it was.  On any
    batch in which no record has both more than 100 mentions and a rank
    below 100 the call returns the empty selection and raises nothing; and
    on every batch it returns normally. *)
Theorem UniverseSelection_empty st :
  UniverseSelection str_Symbol str_Sentiment [] st = (inr [], st) /\
  (forall data,
     (forall d, In d data ->
        (Mentions (heap st d) <= 100 \/ 100 <= Rank (heap st d))%Z) ->
     exists st', UniverseSelection str_Symbol str_Sentiment data st = (inr [], st')) /\
  (forall data,
     exists sel st',
       UniverseSelection str_Symbol str_Sentiment data st = (inr sel, st')).
Proof.
  split; [reflexivity|]. split.
  - intros data Hnone. rewrite UniverseSelection_run.
    assert (Hnil : filter selected (records st data) = []).
    { induction data as [|d rest IH]; [reflexivity|].
      cbn [records map filter].
      destruct (selected (heap st d)) eqn:Hsel.
      - apply selected_true_iff in Hsel.
        destruct (Hnone d (or_introl eq_refl)); lia.
      - apply IH. intros x Hx. apply Hnone. now right. }
    rewrite Hnil. eexists. reflexivity.
  - intros data. rewrite UniverseSelection_run. eexists _, _. reflexivity.
Qed.

(** C6.  Calling twice in a row on the same batch returns the same
    selection both times, and the selection is the same from any state
    whose store agrees on the batch: the log and the other fields of the
    algorithm have no influence on it. *)
Theorem UniverseSelection_repeatable data st :
  exists sel st1 st2,
    UniverseSelection str_Symbol str_Sentiment data st = (inr sel, st1) /\
    UniverseSelection str_Symbol str_Sentiment data st1 = (inr sel, st2) /\
    forall st0, (forall d, In d data -> heap st0 d = heap st d) ->
      fst (UniverseSelection str_Symbol str_Sentiment data st0) = inr sel.
Proof.
  rewrite UniverseSelection_run. eexists _, _, _.
  split; [reflexivity|]. split.
  - rewrite UniverseSelection_run. reflexivity.
  - intros st0 Hagree. rewrite UniverseSelection_run. cbn [fst].
    unfold records. rewrite (map_ext_in _ _ _ Hagree). reflexivity.
Qed.

(** C7.  The call leaves the object store as it was, so every record of
    the batch keeps its symbol, mentions, rank and sentiment; the settings,
    dates, cash and universes of the algorithm are unchanged too, and the
    log only grows at its end. *)
Theorem UniverseSelection_frame data st :
  exists sel st',
    UniverseSelection str_Symbol str_Sentiment data st = (inr sel, st') /\
    heap st' = heap st /\
    records st' data = records st data /\
    UniverseSettings_Resolution st' = UniverseSettings_Resolution st /\
    StartDate st' = StartDate st /\
    EndDate st' = EndDate st /\
    Cash st' = Cash st /\
    Universes st' = Universes st /\
    exists entries, log st' = log st ++ entries.
Proof.
  rewrite UniverseSelection_run. eexists _, _. split; [reflexivity|].
  cbn. repeat split. eexists. reflexivity.
Qed.

(** C8.  The call appends to the log one entry per record of the batch,
    qualifying or not, in batch order; the entry is the record's symbol,
    mentions, rank and sentiment, in this order, separated by commas. *)
Theorem UniverseSelection_log data st :
  exists sel st',
    UniverseSelection str_Symbol str_Sentiment data st = (inr sel, st') /\
    log st' =
      log st ++
      map (fun r => (str_Symbol (Symbol r) ++ "," ++ str_int (Mentions r) ++ ","
                       ++ str_int (Rank r) ++ "," ++ str_Sentiment (Sentiment r))%string)
          (records st data).
Proof.
  rewrite UniverseSelection_run. eexists _, _. split; reflexivity.
Qed.

(** C9.  The returned selection is the list of the symbols of the
    qualifying records, in the order in which these records stand in the
    batch. *)
Theorem UniverseSelection_order data st :
  exists sel st',
    UniverseSelection str_Symbol str_Sentiment data st = (inr sel, st') /\
    sel = map Symbol
              (filter (fun r => (Mentions r >? 100)%Z && (Rank r <? 100)%Z)%bool
                      (records st data)).
Proof.
  rewrite UniverseSelection_run. eexists _, _. split; reflexivity.
Qed.

Section Multiplicity.

Context (Symbol_eq_dec : forall a b : SymbolT, {a = b} + {a <> b}).

Lemma count_occ_selection (s : SymbolT) (rs : list (Datum SymbolT SentimentT)) :
  count_occ Symbol_eq_dec (map Symbol (filter selected rs)) s =
  List.length
    (filter (fun r => selected r && if Symbol_eq_dec (Symbol r) s then true else false)%bool
            rs).
Proof.
  induction rs as [|r rs IH]; [reflexivity|].
  cbn [filter]. destruct (selected r); cbn [andb map count_occ].
  - destruct (Symbol_eq_dec (Symbol r) s); cbn [List.length]; now rewrite IH.
  - exact IH.
Qed.

(** C10.  The returned selection has one element per qualifying record,
    and a symbol occurs in it as many times as there are qualifying records
    carrying it: nothing is deduplicated. *)
Theorem UniverseSelection_multiplicity data st :
  exists sel st',
    UniverseSelection str_Symbol str_Sentiment data st = (inr sel, st') /\
    List.length sel = List.length (filter selected (records st data)) /\
    forall s,
      count_occ Symbol_eq_dec sel s =
      List.length
        (filter (fun r => selected r &&
                          if Symbol_eq_dec (Symbol r) s then true else false)%bool
                (records st data)).
Proof.
  rewrite UniverseSelection_run. eexists _, _. split; [reflexivity|]. split.
  - apply length_map.
  - intros s. apply count_occ_selection.
Qed.

End Multiplicity.

End Runs.

Section StartUp.

Context {SymbolT SentimentT : Type}.
Context (host_history : Universe -> TimeSpan -> list (list ref)).

Implicit Types (st : QCAlgorithm SymbolT SentimentT).

Local Open Scope list_scope.

(** The state in which [Initialize] checks the history: resolution, dates,
    cash and the universe are set. *)
Lemma Initialize_run st :
  exists st',
    Initialize host_history st =
    let history :=
      host_history (mkUniverse QuiverWallStreetBetsUniverse self_UniverseSelection)
                   (mkTimeSpan 1 0 0 0) in
    match history with
    | [batch] =>
        if Nat.ltb (List.length batch) 100
        then (inl (ValueError "Unexpected historical universe data!"), st')
        else (inr tt, st')
    | _ =>
        (inl (ValueError ("Unexpected history count "
                            ++ str_len (List.length history)
                            ++ "! Expected 1")), st')
    end.
Proof.
  eexists. unfold Initialize, bind, modify, SetStartDate, SetEndDate, SetCash,
    AddUniverse, History, ret, raise.
  cbn -[Nat.ltb str_len String.append].
  destruct (host_history _ _) as [|batch [|batch' more]];
    cbn -[Nat.ltb str_len String.append]; try reflexivity.
  destruct (Nat.ltb (List.length batch) 100); reflexivity.
Qed.

(** C2.  [Initialize] raises [ValueError] when the host answers the
    history request with a number of batches other than one, and when it
    answers with one batch of fewer than 100 records; with one batch of at
    least 100 records it returns normally. *)
Theorem Initialize_validation st :
  let history :=
    host_history (mkUniverse QuiverWallStreetBetsUniverse self_UniverseSelection)
                 (mkTimeSpan 1 0 0 0) in
  (List.length history <> 1%nat ->
   exists st',
     Initialize host_history st =
     (inl (ValueError ("Unexpected history count "
                         ++ str_len (List.length history)
                         ++ "! Expected 1")), st')) /\
  (forall batch, history = [batch] -> (List.length batch < 100)%nat ->
   exists st',
     Initialize host_history st =
     (inl (ValueError "Unexpected historical universe data!"), st')) /\
  (forall batch, history = [batch] -> (100 <= List.length batch)%nat ->
   exists st', Initialize host_history st = (inr tt, st')).
Proof.
  intros history. destruct (Initialize_run st) as [st' Hrun].
  fold history in Hrun. cbv zeta in Hrun. rewrite Hrun. clear Hrun.
  repeat split.
  - intros Hlen. exists st'.
    destruct history as [|batch [|batch' more]]; cbn in Hlen;
      [reflexivity | contradiction | reflexivity].
  - intros batch -> Hlt. exists st'.
    apply Nat.ltb_lt in Hlt. rewrite Hlt. reflexivity.
  - intros batch -> Hge. exists st'.
    apply Nat.ltb_ge in Hge. rewrite Hge. reflexivity.
Qed.

End StartUp.

(** * Concrete runs *)

(** The feed of three records: only the record that passes both thresholds
    is selected, and every record is logged. *)
Example scenario_run :
  run_selection scenario_objects scenario_batch =
  (inr ["AAA"],
   set_log ["AAA,150,50,-12"; "BBB,80,10,7"; "CCC,200,150,0"]
           (ticker_state scenario_objects)).
Proof. reflexivity. Qed.

(** Records at the thresholds, between two records that are selected. *)
Example boundary_mentions_100 :
  fst (run_selection boundary_objects [3%nat; 0%nat; 3%nat]) = inr ["TOP"; "TOP"].
Proof. reflexivity. Qed.

Example boundary_mentions_101_rank_99 :
  fst (run_selection boundary_objects [3%nat; 1%nat; 3%nat])
  = inr ["TOP"; "OK"; "TOP"].
Proof. reflexivity. Qed.

Example boundary_rank_100 :
  fst (run_selection boundary_objects [3%nat; 2%nat; 3%nat]) = inr ["TOP"; "TOP"].
Proof. reflexivity. Qed.

(** A symbol carried by two qualifying records is returned twice; so is
    the symbol of one object that stands twice in the batch. *)
Example twice_run :
  fst (run_selection twice_objects twice_batch) = inr ["AAA"; "AAA"].
Proof. reflexivity. Qed.

Example aliased_run :
  fst (run_selection scenario_objects [0%nat; 0%nat]) = inr ["AAA"; "AAA"].
Proof. reflexivity. Qed.

(** C1, witness: the three symbols of the scenario are distinct, and the
    selection holds exactly the symbols of the qualifying records. *)
Lemma UniverseSelection_exact_witness :
  NoDup (map Symbol (records (ticker_state scenario_objects) scenario_batch)) /\
  exists sel st',
    UniverseSelection (fun s => s) str_int scenario_batch
                      (ticker_state scenario_objects) = (inr sel, st') /\
    forall d, In d scenario_batch ->
      (In (Symbol (heap (ticker_state scenario_objects) d)) sel <->
       (Mentions (heap (ticker_state scenario_objects) d) > 100 /\
        Rank (heap (ticker_state scenario_objects) d) < 100)%Z).
Proof.
  assert (Hnd : NoDup (map Symbol (records (ticker_state scenario_objects)
                                           scenario_batch))).
  { cbn. repeat constructor; cbn; intuition discriminate. }
  split; [exact Hnd|].
  destruct (UniverseSelection_exact
              (fun s => s) str_int scenario_batch (ticker_state scenario_objects))
    as (sel & st' & Hrun & _ & Hexact).
  exists sel, st'. split; [exact Hrun | exact (Hexact Hnd)].
Defined.

(** Outside the invariant of the data model: when two records carry one
    symbol and only the first qualifies, the symbol is selected once, through
    the first record. *)
Example shared_symbol_run :
  fst (run_selection mixed_objects mixed_batch) = inr ["AAA"] /\
  In 1%nat mixed_batch /\
  In (Symbol (mixed_objects 1%nat)) ["AAA"] /\
  ~ (Mentions (mixed_objects 1%nat) > 100 /\ Rank (mixed_objects 1%nat) < 100)%Z.
Proof.
  split; [reflexivity|]. split; [cbn; auto|]. split; [cbn; auto|].
  cbn. lia.
Qed.

(** C5, witness: a batch of two records of which none qualifies. *)
Lemma UniverseSelection_empty_witness :
  (forall d, In d [1%nat; 2%nat] ->
     (Mentions (heap (ticker_state scenario_objects) d) <= 100 \/
      100 <= Rank (heap (ticker_state scenario_objects) d))%Z) /\
  exists st',
    UniverseSelection (fun s => s) str_int [1%nat; 2%nat]
                      (ticker_state scenario_objects) = (inr [], st').
Proof.
  assert (Hnone : forall d, In d [1%nat; 2%nat] ->
     (Mentions (heap (ticker_state scenario_objects) d) <= 100 \/
      100 <= Rank (heap (ticker_state scenario_objects) d))%Z).
  { intros d [<-|[<-|[]]]; cbn; lia. }
  split; [exact Hnone|].
  exact (proj1 (proj2 (UniverseSelection_empty (fun s => s) str_int
                         (ticker_state scenario_objects)))
               [1%nat; 2%nat] Hnone).
Defined.

(** C2, witness: the four kinds of answer of the host. *)
Lemma Initialize_validation_witness :
  (exists st',
     Initialize history_none (ticker_state scenario_objects) =
     (inl (ValueError "Unexpected history count 0! Expected 1"), st')) /\
  (exists st',
     Initialize history_two (ticker_state scenario_objects) =
     (inl (ValueError "Unexpected history count 2! Expected 1"), st')) /\
  (exists st',
     Initialize history_short (ticker_state scenario_objects) =
     (inl (ValueError "Unexpected historical universe data!"), st')) /\
  (exists st',
     Initialize history_full (ticker_state scenario_objects) = (inr tt, st')).
Proof.
  split; [|split; [|split]].
  - apply (proj1 (Initialize_validation history_none
                    (ticker_state scenario_objects))).
    cbn. lia.
  - apply (proj1 (Initialize_validation history_two
                    (ticker_state scenario_objects))).
    cbn. lia.
  - apply (proj1 (proj2 (Initialize_validation history_short
                           (ticker_state scenario_objects)))
                 (repeat 0%nat 99)); [reflexivity|].
    rewrite repeat_length. lia.
  - apply (proj2 (proj2 (Initialize_validation history_full
                           (ticker_state scenario_objects)))
                 (seq 0 100)); [reflexivity|].
    rewrite length_seq. lia.
Defined.

(** * Further properties of [UniverseSelection] *)

Section Selection.

Context {SymbolT SentimentT : Type}.
Context (str_Symbol : SymbolT -> string) (str_Sentiment : SentimentT -> string).

Implicit Types (st : QCAlgorithm SymbolT SentimentT) (data : list ref).

Local Open Scope list_scope.

Lemma selected_false_iff (r : Datum SymbolT SentimentT) :
  selected r = false <-> (Mentions r <= 100 \/ 100 <= Rank r)%Z.
Proof.
  unfold selected. rewrite andb_false_iff, Z.gtb_ltb, !Z.ltb_ge. tauto.
Qed.

Lemma filter_nil_iff {A : Type} (f : A -> bool) (l : list A) :
  filter f l = [] <-> forall x, In x l -> f x = false.
Proof.
  induction l as [|a l IH]; cbn.
  - split; [intros _ x []|reflexivity].
  - destruct (f a) eqn:Ha.
    + split; [discriminate|]. intros H.
      specialize (H a (or_introl eq_refl)). congruence.
    + rewrite IH. split.
      * intros H x [<-|Hx]; auto.
      * intros H x Hx. apply H. now right.
Qed.

Lemma selection_Permutation (rs rs' : list (Datum SymbolT SentimentT)) :
  Permutation rs rs' ->
  Permutation (map Symbol (filter selected rs)) (map Symbol (filter selected rs')).
Proof.
  intros Hperm. induction Hperm as [|r|r1 r2|].
  - apply perm_nil.
  - cbn [filter]. destruct (selected r); [cbn [map]; apply perm_skip|]; assumption.
  - cbn [filter]. destruct (selected r1), (selected r2); cbn [map];
      (apply perm_swap || apply Permutation_refl).
  - eapply perm_trans; eassumption.
Qed.

(** Selecting from a batch made of two parts is selecting from the first
    part and then, from the state that call left, from the second: the
    selections are appended, and the final state, log included, is the
    same. *)
Theorem UniverseSelection_app data1 data2 st :
  exists sel1 st1 sel2 st2,
    UniverseSelection str_Symbol str_Sentiment data1 st = (inr sel1, st1) /\
    UniverseSelection str_Symbol str_Sentiment data2 st1 = (inr sel2, st2) /\
    UniverseSelection str_Symbol str_Sentiment (data1 ++ data2) st
      = (inr (sel1 ++ sel2), st2).
Proof.
  rewrite (UniverseSelection_run _ _ data1 st).
  eexists _, _, _, _. split; [reflexivity|].
  rewrite !UniverseSelection_run. split; [reflexivity|].
  cbn -[log_line selected]. unfold records.
  rewrite !map_app, selection_app, <- app_assoc. reflexivity.
Qed.

(** Reordering the batch reorders the selection and the new log entries
    and changes nothing else: the same symbols are selected, each as many
    times, and the same lines are logged. *)
Theorem UniverseSelection_permutation data data' st :
  Permutation data data' ->
  exists sel sel' st1 st2,
    UniverseSelection str_Symbol str_Sentiment data st = (inr sel, st1) /\
    UniverseSelection str_Symbol str_Sentiment data' st = (inr sel', st2) /\
    Permutation sel sel' /\
    Permutation (log st1) (log st2) /\
    heap st1 = heap st2.
Proof.
  intros Hperm. rewrite !UniverseSelection_run.
  eexists _, _, _, _. split; [reflexivity|]. split; [reflexivity|].
  cbn -[log_line selected]. unfold records. repeat split.
  - now apply selection_Permutation, Permutation_map.
  - now apply Permutation_app_head, Permutation_map, Permutation_map.
Qed.

(** The selection is empty exactly when no record of the batch has both
    more than 100 mentions and a rank below 100; the records are logged all
    the same, one line each. *)
Theorem UniverseSelection_nothing_selected data st :
  exists sel st',
    UniverseSelection str_Symbol str_Sentiment data st = (inr sel, st') /\
    (sel = [] <->
     forall d, In d data ->
       (Mentions (heap st d) <= 100 \/ 100 <= Rank (heap st d))%Z) /\
    List.length (log st') = (List.length (log st) + List.length data)%nat.
Proof.
  rewrite UniverseSelection_run. eexists _, _. split; [reflexivity|]. split.
  - split.
    + intros Hnil d Hd. apply selected_false_iff.
      apply map_eq_nil in Hnil.
      apply (proj1 (filter_nil_iff _ _) Hnil). now apply in_map.
    + intros Hnone.
      replace (filter selected (records st data)) with (@nil (Datum SymbolT SentimentT));
        [reflexivity|].
      symmetry. apply filter_nil_iff. intros r Hr.
      apply in_map_iff in Hr as (d & <- & Hd).
      apply selected_false_iff. auto.
  - cbn -[log_line]. unfold records. now rewrite length_app, !length_map.
Qed.

(** The selection never has more elements than the batch; it has as many
    exactly when every record has more than 100 mentions and a rank below
    100, and then it is the list of all symbols of the batch in batch
    order. *)
Theorem UniverseSelection_everything_selected data st :
  exists sel st',
    UniverseSelection str_Symbol str_Sentiment data st = (inr sel, st') /\
    (List.length sel <= List.length data)%nat /\
    (List.length sel = List.length data <->
     forall d, In d data ->
       (Mentions (heap st d) > 100 /\ Rank (heap st d) < 100)%Z) /\
    (List.length sel = List.length data ->
     sel = map (fun d => Symbol (heap st d)) data).
Proof.
  rewrite UniverseSelection_run. eexists _, _. split; [reflexivity|].
  assert (Hall : List.length (filter selected (records st data))
                 = List.length (records st data) ->
                 filter selected (records st data) = records st data).
  { intros H. now apply forallb_filter_id, filter_length_forallb. }
  rewrite length_map.
  replace (List.length data) with (List.length (records st data))
    by apply length_map.
  split; [apply filter_length_le|]. split.
  - split.
    + intros Hlen d Hd. apply selected_true_iff.
      assert (Hin : In (heap st d) (filter selected (records st data))).
      { rewrite (Hall Hlen). now apply in_map. }
      now apply filter_In in Hin.
    + intros Hq. f_equal. apply forallb_filter_id, forallb_forall.
      intros r Hr. apply in_map_iff in Hr as (d & <- & Hd).
      apply selected_true_iff. auto.
  - intros Hlen. rewrite (Hall Hlen). unfold records. apply map_map.
Qed.

End Selection.

Section Independence.

Context {SymbolT SentimentT SentimentT' : Type}.
Context (str_Symbol str_Symbol' : SymbolT -> string).
Context (str_Sentiment : SentimentT -> string).
Context (str_Sentiment' : SentimentT' -> string).

Local Open Scope list_scope.

Lemma selection_agree (data : list ref)
      (st : QCAlgorithm SymbolT SentimentT) (st' : QCAlgorithm SymbolT SentimentT') :
  (forall d, In d data ->
     Symbol (heap st' d) = Symbol (heap st d) /\
     Mentions (heap st' d) = Mentions (heap st d) /\
     Rank (heap st' d) = Rank (heap st d)) ->
  map Symbol (filter selected (records st' data)) =
  map Symbol (filter selected (records st data)).
Proof.
  induction data as [|d rest IH]; intros Hagree; [reflexivity|].
  cbn [records map filter].
  destruct (Hagree d (or_introl eq_refl)) as (Hs & Hm & Hr).
  assert (Hsel : selected (heap st' d) = selected (heap st d)).
  { unfold selected. now rewrite Hm, Hr. }
  assert (Hrest := IH (fun x Hx => Hagree x (or_intror Hx))).
  unfold records in Hrest. rewrite Hsel.
  destruct (selected (heap st d)); cbn [map]; [rewrite Hs|]; now rewrite Hrest.
Qed.

(** The selection is decided by the symbols, mentions and ranks of the
    batch alone: the sentiment scores, their type, the way symbols and
    scores are printed, and the rest of the state play no part in it. *)
Theorem UniverseSelection_ignores_sentiment (data : list ref)
        (st : QCAlgorithm SymbolT SentimentT) (st' : QCAlgorithm SymbolT SentimentT') :
  (forall d, In d data ->
     Symbol (heap st' d) = Symbol (heap st d) /\
     Mentions (heap st' d) = Mentions (heap st d) /\
     Rank (heap st' d) = Rank (heap st d)) ->
  fst (UniverseSelection str_Symbol' str_Sentiment' data st') =
  fst (UniverseSelection str_Symbol str_Sentiment data st).
Proof.
  intros Hagree. rewrite !UniverseSelection_run. cbn [fst].
  now rewrite (selection_agree data st st' Hagree).
Qed.

End Independence.

(** * The change notification *)

Section Notification.

Context {SymbolT SentimentT SecurityChanges : Type}.
Context (str_Symbol : SymbolT -> string) (str_Sentiment : SentimentT -> string).
Context (ToString : SecurityChanges -> string).

Implicit Types (st : QCAlgorithm SymbolT SentimentT) (data : list ref).

Local Open Scope list_scope.

(** A change notification returns normally, puts the string form of the
    change-set at the end of the log and leaves the rest of the state; a
    selection made after it returns what it would have returned before it,
    and logs its lines after the notification's. *)
Theorem OnSecuritiesChanged_then_selection (changes : SecurityChanges) data st :
  exists st1 sel st2 st2',
    OnSecuritiesChanged ToString changes st = (inr tt, st1) /\
    log st1 = log st ++ [ToString changes] /\
    heap st1 = heap st /\
    UniverseSettings_Resolution st1 = UniverseSettings_Resolution st /\
    StartDate st1 = StartDate st /\
    EndDate st1 = EndDate st /\
    Cash st1 = Cash st /\
    Universes st1 = Universes st /\
    UniverseSelection str_Symbol str_Sentiment data st = (inr sel, st2) /\
    UniverseSelection str_Symbol str_Sentiment data st1 = (inr sel, st2') /\
    log st2' =
      log st ++ ToString changes
             :: map (log_line str_Symbol str_Sentiment) (records st data).
Proof.
  eexists _, _, _, _. split; [reflexivity|]. cbn.
  repeat (split; [reflexivity|]).
  rewrite !UniverseSelection_run. split; [reflexivity|].
  split; [reflexivity|].
  cbn -[log_line]. now rewrite <- app_assoc.
Qed.

End Notification.

(** * Further properties of [Initialize] *)

Section Configuration.

Context {SymbolT SentimentT : Type}.

Implicit Types (st : QCAlgorithm SymbolT SentimentT).
Implicit Types (host_history : Universe -> TimeSpan -> list (list ref)).

Local Open Scope list_scope.

(** The outcome of [Initialize] and the state it leaves, in full. *)
Lemma Initialize_result host_history st :
  Initialize host_history st =
  (match host_history (mkUniverse QuiverWallStreetBetsUniverse self_UniverseSelection)
                      (mkTimeSpan 1 0 0 0) with
   | [batch] =>
       if Nat.ltb (List.length batch) 100
       then inl (ValueError "Unexpected historical universe data!")
       else inr tt
   | history =>
       inl (ValueError ("Unexpected history count "
                          ++ str_len (List.length history)
                          ++ "! Expected 1"))
   end,
   mkQCAlgorithm Daily (Some (mkDate 2022 2 14)) (Some (mkDate 2022 2 18)) 100000
     (Universes st ++ [mkUniverse QuiverWallStreetBetsUniverse self_UniverseSelection])
     (heap st) (log st)).
Proof.
  unfold Initialize, bind, modify, SetStartDate, SetEndDate, SetCash,
    AddUniverse, History, ret, raise.
  cbn -[Nat.ltb str_len String.append].
  destruct (host_history _ _) as [|batch [|batch' more]];
    cbn -[Nat.ltb str_len String.append]; try reflexivity.
  destruct (Nat.ltb (List.length batch) 100); reflexivity.
Qed.

(** Whether [Initialize] returns or raises, it leaves the algorithm
    configured: daily resolution, start date 2022-02-14, end date
    2022-02-18, cash 100000 and the one universe registered after those
    already there, whatever these fields held before.  It logs nothing and
    leaves the object store alone. *)
Theorem Initialize_configuration host_history st :
  exists outcome st',
    Initialize host_history st = (outcome, st') /\
    UniverseSettings_Resolution st' = Daily /\
    StartDate st' = Some (mkDate 2022 2 14) /\
    EndDate st' = Some (mkDate 2022 2 18) /\
    Cash st' = 100000%Z /\
    Universes st' =
      Universes st ++ [mkUniverse QuiverWallStreetBetsUniverse self_UniverseSelection] /\
    heap st' = heap st /\
    log st' = log st.
Proof.
  rewrite Initialize_result. eexists _, _. split; [reflexivity|].
  cbn. repeat split.
Qed.

(** [Initialize] returns normally only when the host answered the history
    request with exactly one batch and that batch has at least 100
    entries; otherwise it raises a [ValueError]. *)
Theorem Initialize_returns_iff host_history st :
  ((exists st', Initialize host_history st = (inr tt, st')) <->
   exists batch,
     host_history (mkUniverse QuiverWallStreetBetsUniverse self_UniverseSelection)
                  (mkTimeSpan 1 0 0 0) = [batch] /\
     (100 <= List.length batch)%nat) /\
  ((exists st', Initialize host_history st = (inr tt, st')) \/
   (exists msg st', Initialize host_history st = (inl (ValueError msg), st'))).
Proof.
  rewrite Initialize_result.
  destruct (host_history _ _) as [|batch [|batch' more]].
  - split; [split|].
    + intros (st' & H). discriminate.
    + intros (batch & H & _). discriminate.
    + right. eexists _, _. reflexivity.
  - destruct (Nat.ltb (List.length batch) 100) eqn:Hlt.
    + split; [split|].
      * intros (st' & H). discriminate.
      * intros (b & H & Hge). injection H as <-.
        apply Nat.ltb_lt in Hlt. lia.
      * right. eexists _, _. reflexivity.
    + split; [split|].
      * intros _. exists batch. split; [reflexivity|].
        now apply Nat.ltb_ge in Hlt.
      * intros _. eexists. reflexivity.
      * left. eexists. reflexivity.
  - split; [split|].
    + intros (st' & H). discriminate.
    + intros (batch0 & H & _). discriminate.
    + right. eexists _, _. reflexivity.
Qed.

(** The start-up check looks at nothing but the number of batches and the
    number of entries of each: two answers of the host with the same batch
    sizes give the same outcome and the same state, whatever the batches
    hold. *)
Theorem Initialize_sizes_only host_history host_history' st :
  map (@List.length ref)
      (host_history' (mkUniverse QuiverWallStreetBetsUniverse self_UniverseSelection)
                     (mkTimeSpan 1 0 0 0)) =
  map (@List.length ref)
      (host_history (mkUniverse QuiverWallStreetBetsUniverse self_UniverseSelection)
                    (mkTimeSpan 1 0 0 0)) ->
  Initialize host_history' st = Initialize host_history st.
Proof.
  rewrite !Initialize_result.
  destruct (host_history' _ _) as [|b' [|c' more']],
           (host_history _ _) as [|b [|c more]];
    cbn [map]; intros Hsizes; try discriminate; try reflexivity.
  - injection Hsizes as Hb. now rewrite Hb.
  - injection Hsizes as _ _ Hmore. cbn [List.length].
    apply (f_equal (@List.length nat)) in Hmore. rewrite !length_map in Hmore.
    now rewrite Hmore.
Qed.

End Configuration.

(** * Concrete runs of the further properties *)

(** The shuffled scenario selects and logs the same, in its own order. *)
Example scenario_shuffled_run :
  run_selection scenario_objects scenario_batch_shuffled =
  (inr ["AAA"],
   set_log ["CCC,200,150,0"; "AAA,150,50,-12"; "BBB,80,10,7"]
           (ticker_state scenario_objects)).
Proof. reflexivity. Qed.

(** With textual sentiments and an earlier log line the selection is the
    same; only the log lines differ. *)
Example scenario_text_run :
  UniverseSelection (fun s => s) (fun s => s) scenario_batch text_state =
  (inr ["AAA"],
   set_log ["earlier line"; "AAA,150,50,bullish"; "BBB,80,10,bearish";
            "CCC,200,150,neutral"] text_state).
Proof. reflexivity. Qed.

Lemma UniverseSelection_permutation_witness :
  Permutation scenario_batch scenario_batch_shuffled /\
  exists sel sel' st1 st2,
    UniverseSelection (fun s => s) str_int scenario_batch
                      (ticker_state scenario_objects) = (inr sel, st1) /\
    UniverseSelection (fun s => s) str_int scenario_batch_shuffled
                      (ticker_state scenario_objects) = (inr sel', st2) /\
    Permutation sel sel' /\
    Permutation (log st1) (log st2) /\
    heap st1 = heap st2.
Proof.
  assert (Hperm : Permutation scenario_batch scenario_batch_shuffled).
  { exact (Permutation_sym (Permutation_cons_append [0%nat; 1%nat] 2%nat)). }
  split; [exact Hperm|].
  exact (UniverseSelection_permutation (fun s => s) str_int
           scenario_batch scenario_batch_shuffled
           (ticker_state scenario_objects) Hperm).
Defined.

Lemma UniverseSelection_ignores_sentiment_witness :
  (forall d, In d scenario_batch ->
     Symbol (heap text_state d) = Symbol (heap (ticker_state scenario_objects) d) /\
     Mentions (heap text_state d) = Mentions (heap (ticker_state scenario_objects) d) /\
     Rank (heap text_state d) = Rank (heap (ticker_state scenario_objects) d)) /\
  fst (UniverseSelection (fun s => s) (fun s => s) scenario_batch text_state) =
  fst (UniverseSelection (fun s => s) str_int scenario_batch
                         (ticker_state scenario_objects)).
Proof.
  assert (Hagree : forall d, In d scenario_batch ->
     Symbol (heap text_state d) = Symbol (heap (ticker_state scenario_objects) d) /\
     Mentions (heap text_state d) = Mentions (heap (ticker_state scenario_objects) d) /\
     Rank (heap text_state d) = Rank (heap (ticker_state scenario_objects) d)).
  { intros d [<-|[<-|[<-|[]]]]; repeat split. }
  split; [exact Hagree|].
  exact (UniverseSelection_ignores_sentiment
           (fun s => s) (fun s => s) str_int (fun s => s)
           scenario_batch (ticker_state scenario_objects) text_state Hagree).
Defined.

Lemma Initialize_sizes_only_witness :
  Initialize history_full_aliased (ticker_state scenario_objects) =
  Initialize history_full (ticker_state scenario_objects).
Proof.
  apply (Initialize_sizes_only history_full history_full_aliased
           (ticker_state scenario_objects)).
  reflexivity.
Defined.
